(** * Zone transfers (xfr.go): a shallow embedding and its properties

    The development follows xfr.go of the dns package: the Envelope and
    Transfer types, the inbound loop [InAxfr] behind [In], the outbound
    responder [Out], and the two codec adapters [ReadMsg] and [WriteMsg].

    Everything the file takes from the rest of the package or from the Go
    library (the wire codec, TSIG, the dialer, the record-type constants) is
    gathered in the interface [DnsLib]; the responder's writer is the
    interface [ResponseWriter]. *)

From Stdlib Require Import ZArith.
From Stdlib.Strings Require Import Byte.
From stdpp Require Import gmap strings list.

Open Scope Z_scope.

(** ** Data model *)

(** Go's [error] values seen by xfr.go: the three package errors it names and
    whatever the transport, the codec or TSIG hand back. *)
Inductive error : Type :=
  | ErrId
  | ErrSoa
  | ErrSecret
  | ErrExt (what : string).

(** [RR_Header]: of a record's header only the owner name and the 16-bit
    type tag are looked at. *)
Record RR_Header : Type := mkHeader {
  Name : string;
  Rrtype : Z
}.

(** [RR]: a resource record is opaque apart from [Header()]. *)
Record RR : Type := mkRR {
  Header : RR_Header;
  Rdata : Z
}.

(** [*TSIG] as returned by [IsTsig]; xfr.go reads [ts.Hdr.Name] only. *)
Record TSIG : Type := mkTSIG {
  Hdr : RR_Header
}.

Record Question : Type := mkQuestion {
  Qname : string;
  Qtype : Z;
  Qclass : Z
}.

Record Msg : Type := mkMsg {
  Id : Z;
  Authoritative : bool;
  Questions : list Question;
  Answer : list RR;
  Extra : list RR
}.

(** [Envelope{RR, Error}]; a nil slice is the empty list, a nil error [None]. *)
Record Envelope : Type := mkEnvelope {
  env_RR : list RR;
  env_Error : option error
}.

(** What one call [t.Read(p)] hands back: the bytes [p[:n]] and the error. *)
Record ReadResult : Type := mkRead {
  rd_bytes : list byte;
  rd_err : option error
}.

(** The [net.Conn] under a [Conn]: its peer, the deadlines set on it ([None]:
    no deadline, as a connection is when dialed) and the frames its peer
    delivers, in order. A read past the last frame never returns. *)
Record NetConn : Type := mkNetConn {
  raddr : string;
  readDeadline : option Z;
  writeDeadline : option Z;
  incoming : list ReadResult
}.

(** [Conn], embedded in [Transfer]: the connection and the TSIG chaining
    state. *)
Record Conn : Type := mkConn {
  netconn : NetConn;
  TsigSecret : gmap string string;
  tsigRequestMAC : string
}.

Record Transfer : Type := mkTransfer {
  conn : Conn;
  DialTimeout : Z;
  ReadTimeout : Z;
  WriteTimeout : Z;
  tsigTimersOnly : bool
}.

(** A Go call either returns or panics. *)
Inductive Result (A : Type) : Type :=
  | Ret (a : A)
  | Panic.
Arguments Ret {A} a.
Arguments Panic {A}.

(** ** The rest of the package *)

Class DnsLib : Type := {
  TypeSOA : Z;
  TypeAXFR : Z;
  TypeIXFR : Z;
  (** [dnsTimeout], the default of the three timeouts. *)
  dnsTimeout : Z;
  (** [m.Unpack(p)] on a fresh message. *)
  Unpack : list byte → Msg + error;
  (** [m.Pack()]. *)
  Pack : Msg → list byte * option error;
  (** [m.IsTsig()]: [None] is the nil pointer. *)
  IsTsig : Msg → option TSIG;
  (** [TsigVerify(p, secret, requestMAC, timersOnly)]. *)
  TsigVerify : list byte → string → string → bool → option error;
  (** [TsigGenerate(m, secret, requestMAC, timersOnly)]. *)
  TsigGenerate : Msg → string → string → bool → list byte * string * option error;
  (** [r.SetReply(q)] on a fresh [r]. *)
  SetReply : Msg → Msg;
  (** [net.DialTimeout(network, address, timeout)]. *)
  net_DialTimeout : string → string → Z → NetConn + error;
  (** The error of [t.Write(out)]. *)
  conn_Write : NetConn → list byte → option error
}.

(** [ResponseWriter]: only [WriteMsg] is called. *)
Class ResponseWriter (W : Type) : Type := {
  rw_WriteMsg : W → Msg → option error * W
}.

(** ** Field updates *)

Definition set_tsigTimersOnly (b : bool) (t : Transfer) : Transfer :=
  {| conn := conn t; DialTimeout := DialTimeout t; ReadTimeout := ReadTimeout t;
     WriteTimeout := WriteTimeout t; tsigTimersOnly := b |}.

Definition set_tsigRequestMAC (mac : string) (t : Transfer) : Transfer :=
  {| conn := {| netconn := netconn (conn t); TsigSecret := TsigSecret (conn t);
                tsigRequestMAC := mac |};
     DialTimeout := DialTimeout t; ReadTimeout := ReadTimeout t;
     WriteTimeout := WriteTimeout t; tsigTimersOnly := tsigTimersOnly t |}.

Definition set_ReadTimeout (d : Z) (t : Transfer) : Transfer :=
  {| conn := conn t; DialTimeout := DialTimeout t; ReadTimeout := d;
     WriteTimeout := WriteTimeout t; tsigTimersOnly := tsigTimersOnly t |}.

Definition set_WriteTimeout (d : Z) (t : Transfer) : Transfer :=
  {| conn := conn t; DialTimeout := DialTimeout t; ReadTimeout := ReadTimeout t;
     WriteTimeout := d; tsigTimersOnly := tsigTimersOnly t |}.

Definition set_Answer (rrs : list RR) (m : Msg) : Msg :=
  {| Id := Id m; Authoritative := Authoritative m; Questions := Questions m;
     Answer := rrs; Extra := Extra m |}.

Definition set_Authoritative (b : bool) (m : Msg) : Msg :=
  {| Id := Id m; Authoritative := b; Questions := Questions m;
     Answer := Answer m; Extra := Extra m |}.

(** ** The inbound side *)

(** What one run of [InAxfr] did.
    - [reads]: the receiver as it was at each call of [t.ReadMsg()], in order;
    - [sent]: the Envelopes sent on the channel, in order;
    - [exit]: how the goroutine stopped;
    - [final]: the receiver when it stopped. *)
Inductive Exit : Type :=
  | Returned   (* return: the deferred close(c) and t.Close() ran *)
  | Panicked   (* a panic: the deferred calls ran, then the panic went on *)
  | Blocked.   (* the last read never returned: nothing was closed *)

Record Run : Type := mkRun {
  reads : list Transfer;
  sent : list Envelope;
  exit : Exit;
  final : Transfer
}.

(** The channel is closed by the deferred [close(c)] only. *)
Definition chan_closed (r : Run) : bool :=
  match exit r with
  | Blocked => false
  | _ => true
  end.

(** One turn of the [for] loop, after [t.ReadMsg()] was called. *)
Inductive Step : Type :=
  | StReturn (e : Envelope) (t' : Transfer)
  | StContinue (e : Envelope) (first' : bool) (t' : Transfer)
  | StPanic.

Definition cons_run (t : Transfer) (e : Envelope) (k : Run) : Run :=
  {| reads := t :: reads k; sent := e :: sent k; exit := exit k; final := final k |}.

(** A run that stops at the message just read. *)
Definition stop_run (t : Transfer) (e : Envelope) (t' : Transfer) : Run :=
  {| reads := [t]; sent := [e]; exit := Returned; final := t' |}.

Section Xfr.
Context {L : DnsLib}.

Definition isSOAFirst (m : Msg) : bool :=
  match Answer m with
  | rr :: _ => Rrtype (Header rr) =? TypeSOA
  | [] => false
  end.

Definition isSOALast (m : Msg) : bool :=
  match last (Answer m) with
  | Some rr => Rrtype (Header rr) =? TypeSOA
  | None => false
  end.

(** [ReadMsg], given what [t.Read(p)] returned. The guard of the TSIG block
    is [t != nil], and [t] is not nil once [t.Read] has returned, so the
    block is entered for every decoded message; with [ts] nil the key
    [ts.Hdr.Name] is a nil dereference. *)
Definition ReadMsg (t : Transfer) (r : ReadResult)
    : Result (option Msg * option error) :=
  match rd_err r, rd_bytes r with
  | Some err, [] => Ret (None, Some err)
  | _, p =>
    match Unpack p with
    | inr err => Ret (None, Some err)
    | inl m =>
      match IsTsig m with
      | None => Panic
      | Some ts =>
        match TsigSecret (conn t) !! Name (Hdr ts) with
        | None => Ret (Some m, Some ErrSecret)
        | Some secret =>
          Ret (Some m,
               TsigVerify p secret (tsigRequestMAC (conn t)) (tsigTimersOnly t))
        end
      end
    end
  end.

(** [WriteMsg]: the same guard [t != nil]; the [else] branch, [m.Pack()],
    is taken for a nil receiver only, where [t.Write] then panics. *)
Definition WriteMsg (t : Transfer) (m : Msg) : Result (option error * Transfer) :=
  match IsTsig m with
  | None => Panic
  | Some ts =>
    match TsigSecret (conn t) !! Name (Hdr ts) with
    | None => Ret (Some ErrSecret, t)
    | Some secret =>
      let '(out, mac, err) :=
        TsigGenerate m secret (tsigRequestMAC (conn t)) (tsigTimersOnly t) in
      let t' := set_tsigRequestMAC mac t in
      match err with
      | Some e => Ret (Some e, t')
      | None => Ret (conn_Write (netconn (conn t')) out, t')
      end
    end
  end.

(** The block under [if !first]. *)
Definition streaming (t : Transfer) (m : Msg) : Step :=
  let t' := set_tsigTimersOnly true t in
  if isSOALast m then StReturn (mkEnvelope (Answer m) None) t'
  else StContinue (mkEnvelope (Answer m) None) false t'.

(** One turn of the loop of [InAxfr] on the frame [r]. After
    [first = !first] the test [!first] holds, so a first message with more
    than one record goes on into [streaming]. *)
Definition InAxfr_iter (id : Z) (first : bool) (t : Transfer) (r : ReadResult)
    : Step :=
  match ReadMsg t r with
  | Panic => StPanic
  | Ret (_, Some err) => StReturn (mkEnvelope [] (Some err)) t
  | Ret (None, None) => StPanic
  | Ret (Some m, None) =>
    if negb (id =? Id m) then StReturn (mkEnvelope (Answer m) (Some ErrId)) t
    else if first then
      if negb (isSOAFirst m) then
        StReturn (mkEnvelope (Answer m) (Some ErrSoa)) t
      else if (length (Answer m) =? 1)%nat then
        StContinue (mkEnvelope (Answer m) None) false (set_tsigTimersOnly true t)
      else streaming t m
    else streaming t m
  end.

Fixpoint InAxfr_loop (id : Z) (first : bool) (t : Transfer)
    (wire : list ReadResult) : Run :=
  match wire with
  | [] => {| reads := [t]; sent := []; exit := Blocked; final := t |}
  | r :: wire' =>
    match InAxfr_iter id first t r with
    | StPanic => {| reads := [t]; sent := []; exit := Panicked; final := t |}
    | StReturn e t' => {| reads := [t]; sent := [e]; exit := Returned; final := t' |}
    | StContinue e first' t' => cons_run t e (InAxfr_loop id first' t' wire')
    end
  end.

Definition InAxfr (t : Transfer) (id : Z) : Run :=
  InAxfr_loop id true t (incoming (netconn (conn t))).

(** What a call of [In] did: what it returned, the connection it dialed
    (the local [co]), and the run of the goroutine it started. *)
Record InResult : Type := mkInResult {
  in_err : option error;
  in_co : option NetConn;
  in_spawned : option Run
}.

Definition In (t : Transfer) (q : Msg) (a : string) : Result InResult :=
  let timeout := if DialTimeout t =? 0 then dnsTimeout else DialTimeout t in
  match net_DialTimeout "tcp" a timeout with
  | inr err => Ret (mkInResult (Some err) None None)
  | inl co =>
    match Questions q with
    | [] => Panic
    | q0 :: _ =>
      if Qtype q0 =? TypeAXFR then
        Ret (mkInResult None (Some co) (Some (InAxfr t (Id q))))
      else if Qtype q0 =? TypeIXFR then
        Ret (mkInResult None (Some co) (Some (InAxfr t (Id q))))
      else Ret (mkInResult None (Some co) None)
    end
  end.

(** ** The outbound side *)

(** The goroutine of [Out], on the Envelopes the producer feeds: the
    messages handed to [w.WriteMsg], in order, and the writer afterwards.
    [r] is the one reply built before the loop. *)
Fixpoint Out_loop {W : Type} `{ResponseWriter W} (r : Msg) (w : W)
    (ch : list Envelope) : list Msg * W :=
  match ch with
  | [] => ([], w)
  | x :: ch' =>
    let r' := set_Answer (Answer r ++ env_RR x) r in
    match rw_WriteMsg w r' with
    | (Some _, w') => ([r'], w')
    | (None, w') =>
      let '(ms, w'') := Out_loop r' w' ch' in (r' :: ms, w'')
    end
  end.

Definition Out {W : Type} `{ResponseWriter W} (w : W) (q : Msg)
    (ch : list Envelope) : list Msg * W :=
  Out_loop (set_Authoritative true (SetReply q)) w ch.

(** ** Vocabulary of the statements *)

(** A message that was read and carries the request's identifier does not
    end the transfer: the first one opens with an SOA and is that SOA alone
    or does not close with an SOA; a later one does not close with an SOA. *)
Definition continuing (first : bool) (m : Msg) : bool :=
  if first then
    isSOAFirst m && ((length (Answer m) =? 1)%nat || negb (isSOALast m))
  else negb (isSOALast m).

(** The frames of [pre] are read one after the other, starting in the state
    [first], [t], as messages with the identifier [id] that do not end the
    transfer; then [rN] is read as [mN], whose identifier is another one. *)
Fixpoint mismatch_at (id : Z) (first : bool) (t : Transfer)
    (pre : list (ReadResult * Msg)) (rN : ReadResult) (mN : Msg) : Prop :=
  match pre with
  | [] => ReadMsg t rN = Ret (Some mN, None) ∧ Id mN ≠ id
  | (r, m) :: pre' =>
    ReadMsg t r = Ret (Some m, None) ∧ Id m = id ∧ continuing first m = true
    ∧ mismatch_at id false (set_tsigTimersOnly true t) pre' rN mN
  end.


(** A message that was read and carries the request's identifier ends the
    transfer in success: its last record is an SOA and, when it is the first
    message, it opens with an SOA and has more than one record. *)
Definition closing (first : bool) (m : Msg) : bool :=
  if first then
    isSOAFirst m && negb (length (Answer m) =? 1)%nat && isSOALast m
  else isSOALast m.

(** The frames of [pre] are read one after the other, starting in the state
    [first], [t], as messages with the identifier [id] that do not end the
    transfer; then [rN] is read as [mN], which has the identifier and ends
    the transfer in success. *)
Fixpoint closes_at (id : Z) (first : bool) (t : Transfer)
    (pre : list (ReadResult * Msg)) (rN : ReadResult) (mN : Msg) : Prop :=
  match pre with
  | [] => ReadMsg t rN = Ret (Some mN, None) ∧ Id mN = id ∧ closing first mN = true
  | (r, m) :: pre' =>
    ReadMsg t r = Ret (Some m, None) ∧ Id m = id ∧ continuing first m = true
    ∧ closes_at id false (set_tsigTimersOnly true t) pre' rN mN
  end.

(** The ways one turn of the loop can go, by what [ReadMsg] returned. *)
Inductive turn (id : Z) (first : bool) (t : Transfer) (r : ReadResult) : Step → Prop :=
  | turn_panic :
      ReadMsg t r = Panic ∨ ReadMsg t r = Ret (None, None) →
      turn id first t r StPanic
  | turn_read_failure (om : option Msg) (err : error) :
      ReadMsg t r = Ret (om, Some err) →
      turn id first t r (StReturn (mkEnvelope [] (Some err)) t)
  | turn_id (m : Msg) :
      ReadMsg t r = Ret (Some m, None) → Id m ≠ id →
      turn id first t r (StReturn (mkEnvelope (Answer m) (Some ErrId)) t)
  | turn_soa (m : Msg) :
      ReadMsg t r = Ret (Some m, None) → Id m = id →
      first = true → isSOAFirst m = false →
      turn id first t r (StReturn (mkEnvelope (Answer m) (Some ErrSoa)) t)
  | turn_continue (m : Msg) :
      ReadMsg t r = Ret (Some m, None) → Id m = id →
      continuing first m = true →
      turn id first t r
        (StContinue (mkEnvelope (Answer m) None) false (set_tsigTimersOnly true t))
  | turn_close (m : Msg) :
      ReadMsg t r = Ret (Some m, None) → Id m = id →
      closing first m = true →
      turn id first t r
        (StReturn (mkEnvelope (Answer m) None) (set_tsigTimersOnly true t)).

End Xfr.

(** ** A test double for the rest of the package

    Used for the concrete runs below. Its wire format is
    [id; signed; type_1; data_1; ...; type_n; data_n]: a one-byte identifier,
    a byte that is [x01] when the message carries a TSIG record (signed by
    the key ["axfr-key."]), and one (type, data) pair of bytes per answer
    record. Verification accepts the secret ["hunter2"] and no other. *)
Module Fixture.

Definition zb (b : byte) : Z := Z.of_N (Byte.to_N b).

Fixpoint records (body : list byte) : list RR :=
  match body with
  | ty :: d :: rest => mkRR (mkHeader "example." (zb ty)) (zb d) :: records rest
  | _ => []
  end.

Definition TypeTSIG : Z := 250.

Definition unpack (p : list byte) : Msg + error :=
  match p with
  | i :: s :: body =>
    inl {| Id := zb i; Authoritative := false; Questions := [];
           Answer := records body;
           Extra := if zb s =? 1 then [mkRR (mkHeader "axfr-key." TypeTSIG) 0] else [] |}
  | _ => inr (ErrExt "short frame")
  end.

Definition is_tsig (m : Msg) : option TSIG :=
  match last (Extra m) with
  | Some rr => if Rrtype (Header rr) =? TypeTSIG then Some (mkTSIG (Header rr)) else None
  | None => None
  end.

Definition verify (p : list byte) (secret mac : string) (timersOnly : bool)
    : option error :=
  if String.eqb secret "hunter2" then None else Some (ErrExt "bad signature").

Definition set_reply (q : Msg) : Msg :=
  {| Id := Id q; Authoritative := false; Questions := Questions q;
     Answer := []; Extra := [] |}.

(** What the server at 192.0.2.1:53 sends: the zone's SOA alone, then two
    address records and the closing SOA. *)
Definition zone_frames : list ReadResult :=
  [ mkRead [x2a; x01; x06; x05] None;
    mkRead [x2a; x01; x01; x0a; x01; x0b; x06; x05] None ].

Definition dial (network a : string) (timeout : Z) : NetConn + error :=
  if String.eqb a "192.0.2.1:53" then inl (mkNetConn a None None zone_frames)
  else inr (ErrExt "connection refused").

Definition lib : DnsLib :=
  {| TypeSOA := 6; TypeAXFR := 252; TypeIXFR := 251;
     dnsTimeout := 2000000000;
     Unpack := unpack;
     Pack := fun _ => ([], None);
     IsTsig := is_tsig;
     TsigVerify := verify;
     TsigGenerate := fun _ _ mac _ => ([], mac, None);
     SetReply := set_reply;
     net_DialTimeout := dial;
     conn_Write := fun _ _ => None |}.

(** A writer that keeps what it is given. *)
Definition log_writer : ResponseWriter (list Msg) :=
  {| rw_WriteMsg := fun w m => (None, w ++ [m]) |}.

Definition keys : gmap string string := {[ "axfr-key." := "hunter2" ]}.

(** A Transfer on a connection that delivers [wire], with the key store
    [keys] and all else at Go's zero value. *)
Definition transfer_on (peer : string) (wire : list ReadResult) : Transfer :=
  {| conn := {| netconn := mkNetConn peer None None wire;
                TsigSecret := keys; tsigRequestMAC := "" |};
     DialTimeout := 0; ReadTimeout := 0; WriteTimeout := 0;
     tsigTimersOnly := false |}.

Definition SOA (serial : Z) : RR := mkRR (mkHeader "example." 6) serial.
Definition A (addr : Z) : RR := mkRR (mkHeader "example." 1) addr.

(** Signed frames with identifier 42 (and one with 99). *)
Definition soa5 : ReadResult := mkRead [x2a; x01; x06; x05] None.
Definition a_a_soa5 : ReadResult :=
  mkRead [x2a; x01; x01; x0a; x01; x0b; x06; x05] None.
Definition soa5_a : ReadResult := mkRead [x2a; x01; x06; x05; x01; x0a] None.
Definition a_only : ReadResult := mkRead [x2a; x01; x01; x0a] None.
Definition no_answer : ReadResult := mkRead [x2a; x01] None.
Definition soa5_id99 : ReadResult := mkRead [x63; x01; x06; x05] None.
(** The same SOA message, unsigned. *)
Definition soa5_unsigned : ReadResult := mkRead [x2a; x00; x06; x05] None.
(** The peer closed the connection. *)
Definition eof : ReadResult := mkRead [] (Some (ErrExt "EOF")).

(** The message a frame decodes to. *)
Definition decode (r : ReadResult) : Msg :=
  match unpack (rd_bytes r) with
  | inl m => m
  | inr _ => mkMsg 0 false [] [] []
  end.

(** An AXFR query for the zone, identifier 42. *)
Definition query : Msg :=
  {| Id := 42; Authoritative := false;
     Questions := [mkQuestion "example." 252 1]; Answer := []; Extra := [] |}.

(** A Transfer with the flag already set, as the loop has it after the
    first message. *)
Definition streaming_on (peer : string) (wire : list ReadResult) : Transfer :=
  set_tsigTimersOnly true (transfer_on peer wire).

End Fixture.

(** More of the test double: other key stores, a frame that comes with a
    transport error, and a signer whose MAC depends on the MAC before. *)
Module Fixture2.

(** A Transfer like [Fixture.transfer_on] with the key store [ks]. *)
Definition transfer_with (ks : gmap string string) (wire : list ReadResult)
    : Transfer :=
  {| conn := {| netconn := mkNetConn "192.0.2.1:53" None None wire;
                TsigSecret := ks; tsigRequestMAC := "" |};
     DialTimeout := 0; ReadTimeout := 0; WriteTimeout := 0;
     tsigTimersOnly := false |}.

(** The key is known under a secret that does not verify. *)
Definition wrong_keys : gmap string string := {[ "axfr-key." := "letmein" ]}.

(** The signed SOA message, handed over together with a transport error. *)
Definition soa5_with_error : ReadResult :=
  mkRead [x2a; x01; x06; x05] (Some (ErrExt "i/o timeout")).

(** The new MAC is the secret followed by the MAC before it. *)
Definition generate (m : Msg) (secret mac : string) (timersOnly : bool)
    : list byte * string * option error :=
  ([x2a], (secret +:+ "/" +:+ mac)%string, None).

Definition signing_lib : DnsLib :=
  {| TypeSOA := 6; TypeAXFR := 252; TypeIXFR := 251;
     dnsTimeout := 2000000000;
     Unpack := Fixture.unpack;
     Pack := fun _ => ([], None);
     IsTsig := Fixture.is_tsig;
     TsigVerify := Fixture.verify;
     TsigGenerate := generate;
     SetReply := Fixture.set_reply;
     net_DialTimeout := Fixture.dial;
     conn_Write := fun _ _ => None |}.

(** An outgoing message signed by "axfr-key.". *)
Definition signed (rrs : list RR) : Msg :=
  {| Id := 42; Authoritative := true; Questions := []; Answer := rrs;
     Extra := [mkRR (mkHeader "axfr-key." Fixture.TypeTSIG) 0] |}.

(** A query of type A (1), identifier 42. *)
Definition a_query : Msg :=
  {| Id := 42; Authoritative := false;
     Questions := [mkQuestion "example." 1 1]; Answer := []; Extra := [] |}.

End Fixture2.

(** ** The inbound loop, message by message *)

Section InboundProps.
Context {L : DnsLib}.

Lemma InAxfr_loop_cons (id : Z) (first : bool) (t : Transfer) (r : ReadResult)
    (wire : list ReadResult) :
  InAxfr_loop id first t (r :: wire) =
    match InAxfr_iter id first t r with
    | StPanic => {| reads := [t]; sent := []; exit := Panicked; final := t |}
    | StReturn e t' => stop_run t e t'
    | StContinue e first' t' => cons_run t e (InAxfr_loop id first' t' wire)
    end.
Proof. reflexivity. Qed.

(** Every run performs at least one read. *)
Lemma reads_nonempty (id : Z) (first : bool) (t : Transfer) (wire : list ReadResult) :
  (1 ≤ length (reads (InAxfr_loop id first t wire)))%nat.
Proof.
  destruct wire as [|r wire]; [simpl; lia|].
  rewrite InAxfr_loop_cons.
  destruct (InAxfr_iter id first t r); simpl; lia.
Qed.

(** A message that was read and carries the request's identifier, met after
    the first one, is handled by the [!first] block. *)
Lemma iter_later (id : Z) (t : Transfer) (r : ReadResult) (m : Msg) :
  ReadMsg t r = Ret (Some m, None) → Id m = id →
  InAxfr_iter id false t r = streaming t m.
Proof.
  intros Hread <-. unfold InAxfr_iter. rewrite Hread, Z.eqb_refl. reflexivity.
Qed.

(** The first message, by its answer section. *)
Lemma iter_first (id : Z) (t : Transfer) (r : ReadResult) (m : Msg) :
  ReadMsg t r = Ret (Some m, None) → Id m = id →
  InAxfr_iter id true t r =
    if isSOAFirst m then
      if (length (Answer m) =? 1)%nat then
        StContinue (mkEnvelope (Answer m) None) false (set_tsigTimersOnly true t)
      else streaming t m
    else StReturn (mkEnvelope (Answer m) (Some ErrSoa)) t.
Proof.
  intros Hread <-. unfold InAxfr_iter. rewrite Hread, Z.eqb_refl. simpl.
  destruct (isSOAFirst m); reflexivity.
Qed.

Lemma iter_mismatch (id : Z) (first : bool) (t : Transfer) (r : ReadResult) (m : Msg) :
  ReadMsg t r = Ret (Some m, None) → Id m ≠ id →
  InAxfr_iter id first t r = StReturn (mkEnvelope (Answer m) (Some ErrId)) t.
Proof.
  intros Hread Hne. unfold InAxfr_iter. rewrite Hread.
  destruct (Z.eqb_spec id (Id m)) as [->|_]; [congruence | reflexivity].
Qed.


(** C9: the first message was read without error and carries the request's
    identifier, but its answer section does not open with an SOA. One
    Envelope, with the answers and ErrSoa, is sent; after this one read the
    goroutine returns and the channel is closed. *)
Theorem missing_leading_soa (t : Transfer) (id : Z) (r : ReadResult)
    (wire : list ReadResult) (m : Msg) :
  incoming (netconn (conn t)) = r :: wire →
  ReadMsg t r = Ret (Some m, None) →
  Id m = id →
  isSOAFirst m = false →
  InAxfr t id = stop_run t (mkEnvelope (Answer m) (Some ErrSoa)) t
  ∧ chan_closed (InAxfr t id) = true.
Proof.
  intros Hwire Hread Hid Hsoa. unfold InAxfr. rewrite Hwire, InAxfr_loop_cons.
  rewrite (iter_first id t r m Hread Hid), Hsoa. split; reflexivity.
Qed.

(** C10: a message after the first, read without error, with the request's
    identifier and an empty answer section. An Envelope with no record and
    no error is sent, and the loop goes on to the next read in the same
    state: the run is that Envelope followed by the run on the rest. *)
Theorem empty_answer_continues (id : Z) (t : Transfer) (r : ReadResult)
    (wire : list ReadResult) (m : Msg) :
  ReadMsg t r = Ret (Some m, None) →
  Id m = id →
  Answer m = [] →
  let run := InAxfr_loop id false t (r :: wire) in
  run = cons_run t (mkEnvelope [] None)
          (InAxfr_loop id false (set_tsigTimersOnly true t) wire)
  ∧ (2 ≤ length (reads run))%nat
  ∧ head (sent run) = Some (mkEnvelope [] None).
Proof.
  intros Hread Hid Hnil run. subst run. rewrite InAxfr_loop_cons.
  rewrite (iter_later id t r m Hread Hid). unfold streaming, isSOALast.
  rewrite Hnil. simpl. repeat split.
  pose proof (reads_nonempty id false (set_tsigTimersOnly true t) wire). lia.
Qed.

(** A message that is read, carries the identifier and does not end the
    transfer sends its answers without error and leaves the loop in the
    Streaming state with the flag set. *)
Lemma iter_continuing (id : Z) (first : bool) (t : Transfer) (r : ReadResult) (m : Msg) :
  ReadMsg t r = Ret (Some m, None) → Id m = id → continuing first m = true →
  InAxfr_iter id first t r =
    StContinue (mkEnvelope (Answer m) None) false (set_tsigTimersOnly true t).
Proof.
  intros Hread Hid Hc. destruct first; simpl in Hc.
  - rewrite (iter_first id t r m Hread Hid).
    apply andb_prop in Hc as [-> Hc].
    destruct (length (Answer m) =? 1)%nat; [reflexivity|].
    simpl in Hc. unfold streaming.
    destruct (isSOALast m); [discriminate | reflexivity].
  - rewrite (iter_later id t r m Hread Hid). unfold streaming.
    destruct (isSOALast m); [discriminate | reflexivity].
Qed.

Lemma mismatch_run (id : Z) (pre : list (ReadResult * Msg)) :
  ∀ (first : bool) (t : Transfer) (rN : ReadResult) (mN : Msg)
    (rest : list ReadResult),
  mismatch_at id first t pre rN mN →
  let run := InAxfr_loop id first t (pre.*1 ++ rN :: rest) in
  sent run = map (λ m, mkEnvelope (Answer m) None) pre.*2
             ++ [mkEnvelope (Answer mN) (Some ErrId)]
  ∧ length (reads run) = S (length pre)
  ∧ exit run = Returned.
Proof.
  induction pre as [|[r m] pre IH]; intros first t rN mN rest Hpre.
  - destruct Hpre as [Hread Hne].
    change (([] : list (ReadResult * Msg)).*1 ++ rN :: rest) with (rN :: rest).
    rewrite InAxfr_loop_cons, (iter_mismatch id first t rN mN Hread Hne).
    repeat split.
  - destruct Hpre as (Hread & Hid & Hc & Hpre).
    change (((r, m) :: pre).*1 ++ rN :: rest) with (r :: (pre.*1 ++ rN :: rest)).
    rewrite InAxfr_loop_cons, (iter_continuing id first t r m Hread Hid Hc).
    destruct (IH false _ rN mN rest Hpre) as (Hs & Hl & He).
    unfold cons_run. cbn [sent reads exit]. rewrite Hs, He.
    cbn [length]. rewrite Hl. repeat split.
Qed.

(** C8: the messages before the N-th are read without error, carry the
    request's identifier and do not end the transfer; the N-th is read
    without error and carries another identifier. Then the Envelopes of the
    first N-1 messages carry their answers and no error, the N-th Envelope
    carries the N-th message's answers and ErrId, exactly N reads are made
    (whatever else the peer sent stays unread), and the goroutine returns, so
    the channel is closed. *)
Theorem id_mismatch_ends_transfer (t : Transfer) (id : Z)
    (pre : list (ReadResult * Msg)) (rN : ReadResult) (mN : Msg)
    (rest : list ReadResult) :
  incoming (netconn (conn t)) = pre.*1 ++ rN :: rest →
  mismatch_at id true t pre rN mN →
  let run := InAxfr t id in
  sent run = map (λ m, mkEnvelope (Answer m) None) pre.*2
             ++ [mkEnvelope (Answer mN) (Some ErrId)]
  ∧ length (reads run) = S (length pre)
  ∧ exit run = Returned
  ∧ chan_closed run = true.
Proof.
  intros Hwire Hpre run. subst run. unfold InAxfr, chan_closed. rewrite Hwire.
  destruct (mismatch_run id pre true t rN mN rest Hpre) as (Hs & Hl & He).
  rewrite Hs, Hl, He. auto.
Qed.






(** ** The connection and the timeouts *)

(** The loop never touches the embedded [Conn]: neither the connection, nor
    the key store, nor the request MAC. *)
Lemma conn_unchanged (id : Z) (wire : list ReadResult) :
  ∀ (first : bool) (t : Transfer),
  Forall (λ s, conn s = conn t) (reads (InAxfr_loop id first t wire))
  ∧ conn (final (InAxfr_loop id first t wire)) = conn t.
Proof.
  induction wire as [|r wire IH]; intros first t.
  - simpl. auto.
  - assert (Hgo : ∀ e : Envelope,
      let k := cons_run t e (InAxfr_loop id false (set_tsigTimersOnly true t) wire) in
      Forall (λ s, conn s = conn t) (reads k) ∧ conn (final k) = conn t).
    { intros e. destruct (IH false (set_tsigTimersOnly true t)) as [Hr Hf].
      simpl. auto. }
    rewrite InAxfr_loop_cons. unfold InAxfr_iter, streaming.
    destruct (ReadMsg t r) as [[[m|] [err|]]|]; simpl; auto.
    destruct (negb (id =? Id m)); simpl; [auto|].
    destruct first.
    + destruct (negb (isSOAFirst m)); simpl; [auto|].
      destruct (length (Answer m) =? 1)%nat; [apply Hgo|].
      destruct (isSOALast m); [simpl; auto | apply Hgo].
    + destruct (isSOALast m); [simpl; auto | apply Hgo].
Qed.

(** The loop does not look at [ReadTimeout]. *)
Lemma loop_ignores_ReadTimeout (id : Z) (d : Z) (wire : list ReadResult) :
  ∀ (first : bool) (t : Transfer),
  sent (InAxfr_loop id first (set_ReadTimeout d t) wire)
    = sent (InAxfr_loop id first t wire)
  ∧ exit (InAxfr_loop id first (set_ReadTimeout d t) wire)
    = exit (InAxfr_loop id first t wire).
Proof.
  induction wire as [|r wire IH]; intros first t.
  - simpl. auto.
  - assert (Hgo : ∀ e : Envelope,
      let k := cons_run t e (InAxfr_loop id false (set_tsigTimersOnly true t) wire) in
      let k' := cons_run (set_ReadTimeout d t) e
                  (InAxfr_loop id false
                     (set_tsigTimersOnly true (set_ReadTimeout d t)) wire) in
      sent k' = sent k ∧ exit k' = exit k).
    { intros e.
      destruct (IH false (set_tsigTimersOnly true t)) as [Hs He].
      simpl. split; [f_equal; exact Hs | exact He]. }
    rewrite !InAxfr_loop_cons. unfold InAxfr_iter, streaming.
    change (ReadMsg (set_ReadTimeout d t) r) with (ReadMsg t r).
    destruct (ReadMsg t r) as [[[m|] [err|]]|]; simpl; auto.
    destruct (negb (id =? Id m)); simpl; [auto|].
    destruct first.
    + destruct (negb (isSOAFirst m)); simpl; [auto|].
      destruct (length (Answer m) =? 1)%nat; [apply Hgo|].
      destruct (isSOALast m); [simpl; auto | apply Hgo].
    + destruct (isSOALast m); [simpl; auto | apply Hgo].
Qed.

(** C2, what the code does: when the dial succeeds and the query is an AXFR
    or IXFR one, [In] returns nil and starts [InAxfr] on the receiver; every
    read of that run is made on the receiver's own connection, whatever
    connection [co] the dial returned. *)
Theorem In_reads_receiver_connection (t : Transfer) (q : Msg) (a : string)
    (co : NetConn) (q0 : Question) (qs : list Question) :
  net_DialTimeout "tcp" a (if DialTimeout t =? 0 then dnsTimeout else DialTimeout t)
    = inl co →
  Questions q = q0 :: qs →
  Qtype q0 = TypeAXFR ∨ Qtype q0 = TypeIXFR →
  In t q a = Ret (mkInResult None (Some co) (Some (InAxfr t (Id q))))
  ∧ Forall (λ s, netconn (conn s) = netconn (conn t)) (reads (InAxfr t (Id q))).
Proof.
  intros Hdial Hq Hty. split.
  - unfold In. rewrite Hdial, Hq.
    destruct Hty as [-> | ->]; rewrite Z.eqb_refl; [reflexivity|].
    destruct (TypeIXFR =? TypeAXFR); reflexivity.
  - destruct (conn_unchanged (Id q) (incoming (netconn (conn t))) true t) as [Hr _].
    unfold InAxfr. eapply Forall_impl; [exact Hr|].
    intros s Hs. simpl in Hs. by rewrite Hs.
Qed.

(** C3, what the code does: a decoded message without a TSIG record makes
    [ReadMsg] panic on [ts.Hdr.Name], and such a message makes [WriteMsg]
    panic in the same way; nothing is returned. *)
Theorem unsigned_message_panics (t : Transfer) (m : Msg) :
  IsTsig m = None →
  (∀ r : ReadResult,
     rd_err r = None ∨ rd_bytes r ≠ [] →
     Unpack (rd_bytes r) = inl m →
     ReadMsg t r = Panic)
  ∧ WriteMsg t m = Panic.
Proof.
  intros Hts. split.
  - intros r Hr Hun. unfold ReadMsg.
    destruct (rd_err r) as [err|] eqn:Herr, (rd_bytes r) as [|b p] eqn:Hp;
      try (by rewrite Hun, Hts).
    destruct Hr as [Hr | Hr]; [discriminate | by destruct Hr].
  - unfold WriteMsg. by rewrite Hts.
Qed.

(** C6, what the code does: the run of [InAxfr] sends the same Envelopes and
    stops in the same way whatever [ReadTimeout] is, every read is made with
    the read deadline the connection had when the transfer began, and
    [WriteMsg] gives the same result whatever [WriteTimeout] is. *)
Theorem timeouts_not_applied (t : Transfer) (id d : Z) (m : Msg) :
  let run := InAxfr (set_ReadTimeout d t) id in
  sent run = sent (InAxfr t id)
  ∧ exit run = exit (InAxfr t id)
  ∧ Forall (λ s, readDeadline (netconn (conn s)) = readDeadline (netconn (conn t)))
      (reads run)
  ∧ match WriteMsg (set_WriteTimeout d t) m, WriteMsg t m with
    | Ret (e1, t1), Ret (e2, t2) =>
      e1 = e2 ∧ writeDeadline (netconn (conn t1)) = writeDeadline (netconn (conn t))
    | Panic, Panic => True
    | _, _ => False
    end.
Proof.
  intros run. subst run. unfold InAxfr.
  change (incoming (netconn (conn (set_ReadTimeout d t))))
    with (incoming (netconn (conn t))).
  destruct (loop_ignores_ReadTimeout id d (incoming (netconn (conn t))) true t)
    as [Hs He].
  split; [exact Hs|]. split; [exact He|]. split.
  - destruct (conn_unchanged id (incoming (netconn (conn t))) true
                (set_ReadTimeout d t)) as [Hr _].
    eapply Forall_impl; [exact Hr|].
    intros s Hc. simpl in Hc. by rewrite Hc.
  - unfold WriteMsg.
    change (conn (set_WriteTimeout d t)) with (conn t).
    change (tsigTimersOnly (set_WriteTimeout d t)) with (tsigTimersOnly t).
    destruct (IsTsig m) as [ts|]; [|exact I].
    destruct (TsigSecret (conn t) !! Name (Hdr ts)) as [secret|]; [|by split].
    destruct (TsigGenerate m secret (tsigRequestMAC (conn t)) (tsigTimersOnly t))
      as [[out mac] [e|]]; by split.
Qed.

End InboundProps.

(** ** The outbound responder *)

Section OutboundProps.
Context {L : DnsLib} {W : Type} {RW : ResponseWriter W}.

Lemma Out_loop_answers (ch : list Envelope) :
  ∀ (r : Msg) (w : W) (i : nat) (msg : Msg),
  (Out_loop r w ch).1 !! i = Some msg →
  Answer msg = Answer r ++ concat (map env_RR (take (S i) ch)).
Proof.
  induction ch as [|x ch IH]; intros r w i msg Hi; [discriminate|].
  simpl in Hi.
  destruct (rw_WriteMsg w (set_Answer (Answer r ++ env_RR x) r)) as [[e|] w'].
  - destruct i as [|i]; [|discriminate]. simpl in Hi.
    injection Hi as <-. simpl. by rewrite ?take_0, ?app_nil_r.
  - destruct (Out_loop (set_Answer (Answer r ++ env_RR x) r) w' ch)
      as [ms w''] eqn:Hloop.
    destruct i as [|i]; simpl in Hi.
    + injection Hi as <-. simpl. by rewrite ?take_0, ?app_nil_r.
    + assert (Hi' : (Out_loop (set_Answer (Answer r ++ env_RR x) r) w' ch).1 !! i
                    = Some msg) by (by rewrite Hloop).
      rewrite (IH _ _ _ _ Hi'). simpl. by rewrite app_assoc.
Qed.

(** C5, what the code does: the i-th message handed to the writer (counting
    from 0) carries the records of all the Envelopes received so far, those
    of Envelopes 0 to i in order, after whatever the reply held to begin
    with: the one reply is appended to and never emptied. *)
Theorem Out_replies_accumulate (w : W) (q : Msg) (ch : list Envelope)
    (i : nat) (msg : Msg) :
  (Out w q ch).1 !! i = Some msg →
  Answer msg = Answer (SetReply q) ++ concat (map env_RR (take (S i) ch)).
Proof.
  intros Hi. unfold Out in Hi. by rewrite (Out_loop_answers _ _ _ _ _ Hi).
Qed.

End OutboundProps.

(** ** The run as a whole *)

Section RunProps.
Context {L : DnsLib}.

(** Every turn of the loop is one of the six of [turn]. *)
Lemma iter_turn (id : Z) (first : bool) (t : Transfer) (r : ReadResult) :
  turn id first t r (InAxfr_iter id first t r).
Proof.
  unfold InAxfr_iter.
  destruct (ReadMsg t r) as [[[m|] [err|]]|] eqn:Hread;
    try (by eapply turn_read_failure); try (by apply turn_panic; auto).
  destruct (Z.eqb_spec id (Id m)) as [Hid|Hid]; simpl;
    [symmetry in Hid | by apply turn_id].
  assert (Hstr : ∀ b, (b = closing first m ∧ b = negb (continuing first m)) →
                 b = isSOALast m → turn id first t r (streaming t m)).
  { intros b [Hc Hk] Hb. unfold streaming. rewrite <- Hb.
    destruct b; [apply turn_close | apply turn_continue]; try done.
    by destruct (continuing first m). }
  destruct first; simpl.
  - destruct (isSOAFirst m) eqn:Hfst; simpl; [|by apply turn_soa].
    destruct (length (Answer m) =? 1)%nat eqn:Hlen.
    + apply turn_continue; try done. simpl. by rewrite Hfst, Hlen.
    + apply (Hstr (isSOALast m)); [|done]. simpl. rewrite Hfst, Hlen. simpl.
      by destruct (isSOALast m).
  - apply (Hstr (isSOALast m)); [|done]. simpl. by destruct (isSOALast m).
Qed.

(** A read failure, whatever its cause and whatever the state of the loop,
    sends one Envelope with that error and no record, even when [ReadMsg]
    handed the message back beside the error, and ends the transfer. *)
Theorem read_failure_ends_transfer (id : Z) (first : bool) (t : Transfer)
    (r : ReadResult) (wire : list ReadResult) (om : option Msg) (err : error) :
  ReadMsg t r = Ret (om, Some err) →
  InAxfr_loop id first t (r :: wire) = stop_run t (mkEnvelope [] (Some err)) t.
Proof.
  intros Hread. rewrite InAxfr_loop_cons. unfold InAxfr_iter. rewrite Hread.
  by destruct om.
Qed.

(** A message signed by a name the key store does not hold is not verified:
    [ReadMsg] returns it with ErrSecret, and the loop reports ErrSecret
    without the message's records and stops. *)
Theorem unknown_key_ends_transfer (id : Z) (first : bool) (t : Transfer)
    (r : ReadResult) (wire : list ReadResult) (m : Msg) (ts : TSIG) :
  rd_err r = None ∨ rd_bytes r ≠ [] →
  Unpack (rd_bytes r) = inl m →
  IsTsig m = Some ts →
  TsigSecret (conn t) !! Name (Hdr ts) = None →
  ReadMsg t r = Ret (Some m, Some ErrSecret)
  ∧ InAxfr_loop id first t (r :: wire)
    = stop_run t (mkEnvelope [] (Some ErrSecret)) t.
Proof.
  intros Hr Hun Hts Hkey.
  assert (Hread : ReadMsg t r = Ret (Some m, Some ErrSecret)).
  { unfold ReadMsg.
    destruct (rd_err r) as [e|] eqn:He, (rd_bytes r) as [|b p] eqn:Hp;
      try (by rewrite Hun, Hts, Hkey).
    destruct Hr as [Hr|Hr]; [discriminate | by destruct Hr]. }
  split; [exact Hread|].
  rewrite InAxfr_loop_cons. unfold InAxfr_iter. by rewrite Hread.
Qed.

(** A transport error that comes with data is dropped: the bytes are decoded
    and checked as if the read had succeeded. *)
Theorem read_error_with_data_dropped (t : Transfer) (r : ReadResult) :
  rd_bytes r ≠ [] →
  ReadMsg t r = ReadMsg t (mkRead (rd_bytes r) None).
Proof.
  intros Hp. unfold ReadMsg. simpl.
  destruct (rd_err r) as [e|], (rd_bytes r) as [|b p]; done.
Qed.

(** [ReadMsg] returns a message without error only when the frame decodes to
    it, it carries a TSIG record whose signer is in the key store, and the
    raw bytes verify under that secret, the stored request MAC and the
    timers-only flag. *)
Theorem accepted_message_is_verified (t : Transfer) (r : ReadResult) (m : Msg) :
  ReadMsg t r = Ret (Some m, None) →
  ∃ (ts : TSIG) (secret : string),
    Unpack (rd_bytes r) = inl m
    ∧ IsTsig m = Some ts
    ∧ TsigSecret (conn t) !! Name (Hdr ts) = Some secret
    ∧ TsigVerify (rd_bytes r) secret (tsigRequestMAC (conn t)) (tsigTimersOnly t)
      = None.
Proof.
  intros Hread.
  assert (Hgo : match Unpack (rd_bytes r) with
                | inr err => Ret (None, Some err)
                | inl m0 =>
                  match IsTsig m0 with
                  | None => Panic
                  | Some ts =>
                    match TsigSecret (conn t) !! Name (Hdr ts) with
                    | None => Ret (Some m0, Some ErrSecret)
                    | Some secret =>
                      Ret (Some m0,
                           TsigVerify (rd_bytes r) secret (tsigRequestMAC (conn t))
                             (tsigTimersOnly t))
                    end
                  end
                end = Ret (Some m, None)).
  { revert Hread. unfold ReadMsg.
    destruct (rd_err r) as [e|], (rd_bytes r) as [|b p]; done. }
  clear Hread.
  destruct (Unpack (rd_bytes r)) as [m0|e] eqn:Hun; [|discriminate].
  destruct (IsTsig m0) as [ts|] eqn:Hts; [|discriminate].
  destruct (TsigSecret (conn t) !! Name (Hdr ts)) as [secret|] eqn:Hkey;
    [|discriminate].
  injection Hgo as Hm Hv. subst m0. by exists ts, secret.
Qed.

(** *** What a run looks like *)


(** Envelopes against reads, by the way the run stopped. *)
Lemma envelope_count (id : Z) (wire : list ReadResult) :
  ∀ (first : bool) (t : Transfer),
  (length (reads (InAxfr_loop id first t wire)) ≤ S (length wire))%nat
  ∧ match exit (InAxfr_loop id first t wire) with
    | Returned =>
      length (sent (InAxfr_loop id first t wire))
      = length (reads (InAxfr_loop id first t wire))
    | Panicked =>
      S (length (sent (InAxfr_loop id first t wire)))
      = length (reads (InAxfr_loop id first t wire))
    | Blocked =>
      S (length (sent (InAxfr_loop id first t wire)))
      = length (reads (InAxfr_loop id first t wire))
      ∧ length (sent (InAxfr_loop id first t wire)) = length wire
    end.
Proof.
  induction wire as [|r wire IH]; intros first t.
  - simpl. auto.
  - rewrite InAxfr_loop_cons.
    pose proof (iter_turn id first t r) as Ht.
    destruct Ht; simpl; try (split; [lia | reflexivity]).
    destruct (IH false (set_tsigTimersOnly true t)) as [Hl Hx].
    split; [lia|].
    destruct (exit (InAxfr_loop id false (set_tsigTimersOnly true t) wire));
      try destruct Hx; auto.
Qed.

(** Every read that returns is answered by exactly one Envelope, and no more
    reads are made than the peer delivers frames, but for the one that never
    returns: after a return there are as many Envelopes as reads, otherwise
    one less; a run that blocks has consumed every frame. *)
Theorem one_envelope_per_read (id : Z) (first : bool) (t : Transfer)
    (wire : list ReadResult) :
  let run := InAxfr_loop id first t wire in
  (length (reads run) ≤ S (length wire))%nat
  ∧ match exit run with
    | Returned => length (sent run) = length (reads run)
    | Panicked => S (length (sent run)) = length (reads run)
    | Blocked => S (length (sent run)) = length (reads run)
                 ∧ length (sent run) = length wire
    end.
Proof.
  intros run. subst run.
  destruct (envelope_count id wire first t) as [Hl Hx]. split; [exact Hl|].
  destruct (exit (InAxfr_loop id first t wire)); exact Hx.
Qed.

(** A run that returned sent at least one Envelope. *)
Lemma returned_sent_nonempty (id : Z) (first : bool) (t : Transfer)
    (wire : list ReadResult) :
  exit (InAxfr_loop id first t wire) = Returned →
  sent (InAxfr_loop id first t wire) ≠ [].
Proof.
  intros Hx Hs.
  destruct (envelope_count id wire first t) as [_ Hl].
  pose proof (reads_nonempty id first t wire) as Hr.
  rewrite Hx, Hs in Hl. simpl in Hl. lia.
Qed.

(** An Envelope that carries an error is the last one sent, and the
    goroutine returned after it: the channel is closed. *)
Theorem error_envelope_is_last (id : Z) (wire : list ReadResult) :
  ∀ (first : bool) (t : Transfer) (i : nat) (e : Envelope) (err : error),
  sent (InAxfr_loop id first t wire) !! i = Some e →
  env_Error e = Some err →
  S i = length (sent (InAxfr_loop id first t wire))
  ∧ exit (InAxfr_loop id first t wire) = Returned.
Proof.
  induction wire as [|r wire IH]; intros first t i e err; [done|].
  rewrite InAxfr_loop_cons.
  pose proof (iter_turn id first t r) as Ht.
  destruct Ht; simpl; try done;
    try (by destruct i as [|i]; [intros [= <-] _ | done]).
  destruct i as [|i]; simpl.
  - by intros [= <-].
  - intros Hi He. destruct (IH false _ i e err Hi He) as [Hl Hx]. by rewrite Hl.
Qed.

(** Every Envelope without error holds the answer section of the message
    read at the same position, and that message was read without error and
    carries the request's identifier. *)
Theorem success_envelope_is_read_message (id : Z) (wire : list ReadResult) :
  ∀ (first : bool) (t : Transfer) (i : nat) (e : Envelope),
  sent (InAxfr_loop id first t wire) !! i = Some e →
  env_Error e = None →
  ∃ (s : Transfer) (r : ReadResult) (m : Msg),
    reads (InAxfr_loop id first t wire) !! i = Some s
    ∧ wire !! i = Some r
    ∧ ReadMsg s r = Ret (Some m, None)
    ∧ Id m = id
    ∧ env_RR e = Answer m.
Proof.
  induction wire as [|r wire IH]; intros first t i e; [done|].
  rewrite InAxfr_loop_cons.
  pose proof (iter_turn id first t r) as Ht.
  destruct Ht as [?|?|?|?|m Hread Hid Hc|m Hread Hid Hc]; simpl; try done;
    try (by destruct i as [|i]; [intros [= <-] | done]).
  - destruct i as [|i]; simpl.
    + intros [= <-] _. by exists t, r, m.
    + intros Hi He. destruct (IH false _ i e Hi He) as (s & r' & m' & ?).
      by exists s, r', m'.
  - destruct i as [|i]; [|done]. simpl.
    intros [= <-] _. by exists t, r, m.
Qed.

Lemma isSOAFirst_true (m : Msg) :
  isSOAFirst m = true →
  ∃ (rr : RR) (rest : list RR),
    Answer m = rr :: rest ∧ Rrtype (Header rr) = TypeSOA.
Proof.
  unfold isSOAFirst. destruct (Answer m) as [|rr rest]; [done|].
  intros Hty%Z.eqb_eq. by exists rr, rest.
Qed.

Lemma isSOALast_true (m : Msg) :
  isSOALast m = true →
  ∃ rr : RR, last (Answer m) = Some rr ∧ Rrtype (Header rr) = TypeSOA.
Proof.
  unfold isSOALast. destruct (last (Answer m)) as [rr|]; [|done].
  intros Hty%Z.eqb_eq. by exists rr.
Qed.

(** No record is delivered before the zone's SOA: when the first Envelope
    of a transfer carries no error, its first record is an SOA. *)
Theorem first_success_opens_with_soa (t : Transfer) (id : Z) (e : Envelope) :
  head (sent (InAxfr t id)) = Some e →
  env_Error e = None →
  ∃ (rr : RR) (rest : list RR),
    env_RR e = rr :: rest ∧ Rrtype (Header rr) = TypeSOA.
Proof.
  unfold InAxfr. destruct (incoming (netconn (conn t))) as [|r wire]; [done|].
  rewrite InAxfr_loop_cons.
  pose proof (iter_turn id true t r) as Ht.
  destruct Ht as [?|?|?|?|m Hread Hid Hc|m Hread Hid Hc]; simpl; try done;
    try (by intros [= <-]).
  - intros [= <-] _. simpl. apply isSOAFirst_true.
    simpl in Hc. by apply andb_prop in Hc as [? _].
  - intros [= <-] _. simpl. apply isSOAFirst_true.
    simpl in Hc. apply andb_prop in Hc as [Hc _]. by apply andb_prop in Hc as [? _].
Qed.

(** A transfer ends in success only on a closing SOA: when the goroutine
    returned and the last Envelope carries no error, the last record of
    that Envelope is an SOA. *)
Theorem success_end_closes_with_soa (id : Z) (wire : list ReadResult) :
  ∀ (first : bool) (t : Transfer) (e : Envelope),
  exit (InAxfr_loop id first t wire) = Returned →
  last (sent (InAxfr_loop id first t wire)) = Some e →
  env_Error e = None →
  ∃ rr : RR, last (env_RR e) = Some rr ∧ Rrtype (Header rr) = TypeSOA.
Proof.
  induction wire as [|r wire IH]; intros first t e; [done|].
  rewrite InAxfr_loop_cons.
  pose proof (iter_turn id first t r) as Ht.
  destruct Ht as [?|?|?|?|m Hread Hid Hc|m Hread Hid Hc]; simpl; try done;
    try (by intros _ [= <-]).
  - intros Hx Hl He.
    pose proof (returned_sent_nonempty id false _ wire Hx) as Hne.
    destruct (sent (InAxfr_loop id false (set_tsigTimersOnly true t) wire))
      as [|e1 es] eqn:Hs; [done|].
    apply (IH false (set_tsigTimersOnly true t) e Hx); [|done].
    by rewrite Hs.
  - intros _ [= <-] _. simpl. apply isSOALast_true.
    destruct first; simpl in Hc; [|done]. by apply andb_prop in Hc as [_ ?].
Qed.

Lemma closes_run (id : Z) (pre : list (ReadResult * Msg)) :
  ∀ (first : bool) (t : Transfer) (rN : ReadResult) (mN : Msg)
    (rest : list ReadResult),
  closes_at id first t pre rN mN →
  let run := InAxfr_loop id first t (pre.*1 ++ rN :: rest) in
  sent run = map (λ m, mkEnvelope (Answer m) None) (pre.*2 ++ [mN])
  ∧ length (reads run) = S (length pre)
  ∧ exit run = Returned
  ∧ final run = set_tsigTimersOnly true t.
Proof.
  induction pre as [|[r m] pre IH]; intros first t rN mN rest Hpre.
  - destruct Hpre as (Hread & Hid & Hc).
    change (([] : list (ReadResult * Msg)).*1 ++ rN :: rest) with (rN :: rest).
    rewrite InAxfr_loop_cons.
    pose proof (iter_turn id first t rN) as Ht.
    destruct Ht as [[Hp|Hp]|om err Hp|m Hp Hne|m Hp _ Hf Hs|m Hp _ Hk|m Hp _ _];
      rewrite Hread in Hp; try discriminate; injection Hp as <-.
    + congruence.
    + subst first. simpl in Hc. by rewrite Hs in Hc.
    + destruct first; simpl in Hc, Hk.
      * apply andb_prop in Hc as [Hc Hl]. apply andb_prop in Hc as [Hf Hn].
        rewrite Hf, Hl in Hk. simpl in Hk.
        by destruct (length (Answer mN) =? 1)%nat.
      * by rewrite Hc in Hk.
    + by repeat split.
  - destruct Hpre as (Hread & Hid & Hc & Hpre).
    change (((r, m) :: pre).*1 ++ rN :: rest) with (r :: (pre.*1 ++ rN :: rest)).
    rewrite InAxfr_loop_cons, (iter_continuing id first t r m Hread Hid Hc).
    destruct (IH false _ rN mN rest Hpre) as (Hs & Hl & He & Hf).
    unfold cons_run. cbn [sent reads exit final]. rewrite Hs, He, Hf.
    cbn [length]. rewrite Hl. by repeat split.
Qed.

(** A complete transfer: the messages before the N-th are read without
    error, carry the request's identifier and do not end the transfer, and
    the N-th, read likewise, closes with an SOA (and, if it is the first,
    opens with one and is longer than one record). Then N Envelopes are
    sent, each holding one message's answers and no error, in the order
    read; exactly N reads are made; the goroutine returns, which closes the
    channel; and timers-only is left set. *)
Theorem complete_transfer (t : Transfer) (id : Z)
    (pre : list (ReadResult * Msg)) (rN : ReadResult) (mN : Msg)
    (rest : list ReadResult) :
  incoming (netconn (conn t)) = pre.*1 ++ rN :: rest →
  closes_at id true t pre rN mN →
  let run := InAxfr t id in
  sent run = map (λ m, mkEnvelope (Answer m) None) (pre.*2 ++ [mN])
  ∧ concat (map env_RR (sent run)) = concat (map Answer (pre.*2 ++ [mN]))
  ∧ length (reads run) = S (length pre)
  ∧ exit run = Returned
  ∧ final run = set_tsigTimersOnly true t.
Proof.
  intros Hwire Hpre run. subst run. unfold InAxfr. rewrite Hwire.
  destruct (closes_run id pre true t rN mN rest Hpre) as (Hs & Hl & He & Hf).
  rewrite Hs, Hl, He, Hf. repeat split.
  rewrite map_map. simpl. done.
Qed.

End RunProps.

(** ** The SOA tests, [In], [WriteMsg] and [Out] *)

Section MoreProps.
Context {L : DnsLib}.

(** The two SOA tests look at one record each and mirror each other: the
    closing test is the opening test on the reversed answer section, both
    fail on an empty one, and they depend on nothing but the type of the
    first, respectively last, record. *)
Theorem soa_tests_mirror (m : Msg) :
  isSOALast m = isSOAFirst (set_Answer (reverse (Answer m)) m)
  ∧ (∀ (l : list RR) (rr : RR),
       Answer m = l ++ [rr] → isSOALast m = (Rrtype (Header rr) =? TypeSOA))
  ∧ (∀ (l : list RR) (rr : RR),
       Answer m = rr :: l → isSOAFirst m = (Rrtype (Header rr) =? TypeSOA))
  ∧ (Answer m = [] → isSOAFirst m = false ∧ isSOALast m = false).
Proof.
  unfold isSOALast, isSOAFirst. split; [|split; [|split]].
  - simpl. rewrite <- (head_reverse (Answer m)).
    by destruct (reverse (Answer m)).
  - intros l rr ->. by rewrite last_snoc.
  - by intros l rr ->.
  - by intros ->.
Qed.

(** What [In] starts. It returns nil exactly when the dial succeeded, and it
    starts the transfer exactly when, besides, the first question of the
    query is of type AXFR or IXFR; the transfer it starts is [InAxfr] on the
    receiver with the query's identifier. So for a query of another type
    nil is returned and nothing is started: no Envelope is ever sent and the
    channel is never closed. The dial is given [DialTimeout], or
    [dnsTimeout] when that is zero. *)
Theorem In_starts_transfer_iff (t : Transfer) (q : Msg) (a : string)
    (res : InResult) :
  In t q a = Ret res →
  let dialed :=
    net_DialTimeout "tcp" a
      (if DialTimeout t =? 0 then dnsTimeout else DialTimeout t) in
  (in_err res = None ↔ ∃ co, dialed = inl co ∧ in_co res = Some co)
  ∧ (is_Some (in_spawned res) ↔
     ∃ co q0 qs, dialed = inl co ∧ Questions q = q0 :: qs
                 ∧ (Qtype q0 = TypeAXFR ∨ Qtype q0 = TypeIXFR))
  ∧ (∀ run, in_spawned res = Some run → run = InAxfr t (Id q)).
Proof.
  intros Hin dialed. subst dialed. unfold In in Hin.
  destruct (net_DialTimeout "tcp" a _) as [co|err].
  - destruct (Questions q) as [|q0 qs]; [discriminate|].
    destruct (Z.eqb_spec (Qtype q0) TypeAXFR) as [Hax|Hax];
      [|destruct (Z.eqb_spec (Qtype q0) TypeIXFR) as [Hix|Hix]];
      injection Hin as <-; simpl; (split; [|split]).
    all: try (split; [intros _; by exists co | done]).
    all: try (by intros run [= <-]).
    + split; [intros _; exists co, q0, qs; auto | by eexists].
    + split; [intros _; exists co, q0, qs; auto | by eexists].
    + split; [by intros [? [=]] |].
      intros (co' & q0' & qs' & _ & [= <- <-] & [?|?]); done.
  - injection Hin as <-. simpl. split; [|split].
    + split; [done | by intros (? & [=] & _)].
    + split; [by intros [? [=]] | by intros (? & ? & ? & [=] & _)].
    + done.
Qed.

(** [WriteMsg] changes nothing of the Transfer but the stored request MAC,
    and with an unknown signer it fails with ErrSecret before anything is
    generated or written, leaving the Transfer as it was. *)
Theorem WriteMsg_changes_only_mac (t t' : Transfer) (m : Msg) (e : option error) :
  WriteMsg t m = Ret (e, t') →
  (∃ mac : string, t' = set_tsigRequestMAC mac t)
  ∧ (∀ ts : TSIG, IsTsig m = Some ts →
       TsigSecret (conn t) !! Name (Hdr ts) = None →
       e = Some ErrSecret ∧ t' = t).
Proof.
  unfold WriteMsg. intros Hw.
  destruct (IsTsig m) as [ts|]; [|discriminate].
  destruct (TsigSecret (conn t) !! Name (Hdr ts)) as [secret|] eqn:Hkey.
  - destruct (TsigGenerate m secret (tsigRequestMAC (conn t)) (tsigTimersOnly t))
      as [[out mac] err].
    split; [|by intros ts' [= <-] Hnone; rewrite Hkey in Hnone].
    exists mac. by destruct err; injection Hw as _ <-.
  - injection Hw as <- <-. split; [|by intros].
    exists (tsigRequestMAC (conn t)). by destruct t as [[? ? ?] ? ? ? ?].
Qed.

(** The MAC chain on the write side. A signed message with a known key is
    generated from the stored request MAC and the flag, and the MAC that
    [TsigGenerate] returns is stored whether or not generation, or the
    write after it, fails; the next message is generated from that MAC. *)
Theorem WriteMsg_chains_mac (t : Transfer) (m1 m2 : Msg) (ts1 ts2 : TSIG)
    (s1 s2 : string) (out1 out2 : list byte) (mac1 mac2 : string)
    (err1 err2 : option error) :
  IsTsig m1 = Some ts1 →
  IsTsig m2 = Some ts2 →
  TsigSecret (conn t) !! Name (Hdr ts1) = Some s1 →
  TsigSecret (conn t) !! Name (Hdr ts2) = Some s2 →
  TsigGenerate m1 s1 (tsigRequestMAC (conn t)) (tsigTimersOnly t)
    = (out1, mac1, err1) →
  TsigGenerate m2 s2 mac1 (tsigTimersOnly t) = (out2, mac2, err2) →
  let result (err : option error) (out : list byte) :=
    match err with
    | Some e => Some e
    | None => conn_Write (netconn (conn t)) out
    end in
  WriteMsg t m1 = Ret (result err1 out1, set_tsigRequestMAC mac1 t)
  ∧ WriteMsg (set_tsigRequestMAC mac1 t) m2
    = Ret (result err2 out2, set_tsigRequestMAC mac2 t).
Proof.
  intros Hts1 Hts2 Hk1 Hk2 Hg1 Hg2 result. subst result.
  unfold WriteMsg. rewrite Hts1, Hts2. simpl.
  rewrite Hk1, Hk2, Hg1, Hg2. by destruct err1, err2.
Qed.

End MoreProps.

Section MoreOutProps.
Context {L : DnsLib} {W : Type} {RW : ResponseWriter W}.

Lemma Out_loop_shape (ch : list Envelope) :
  ∀ (r : Msg) (w : W),
  Forall (λ msg, msg = set_Answer (Answer msg) r) (Out_loop r w ch).1
  ∧ (length (Out_loop r w ch).1 ≤ length ch)%nat.
Proof.
  induction ch as [|x ch IH]; intros r w; [simpl; auto|].
  simpl.
  destruct (rw_WriteMsg w (set_Answer (Answer r ++ env_RR x) r)) as [[e|] w'].
  - simpl. split; [|lia]. by repeat constructor.
  - destruct (IH (set_Answer (Answer r ++ env_RR x) r) w') as [Hf Hl].
    destruct (Out_loop (set_Answer (Answer r ++ env_RR x) r) w' ch) as [ms w''].
    simpl in *. split; [|lia].
    constructor; [done|].
    eapply Forall_impl; [exact Hf|]. by intros msg ->.
Qed.

(** Every message [Out] hands to the writer is the reply built before the
    loop with another answer section: authoritative, with the identifier,
    question and additional section of [SetReply]'s reply. No more messages
    are written than Envelopes are fed. *)
Theorem Out_replies_keep_header (w : W) (q : Msg) (ch : list Envelope) :
  Forall (λ msg, Authoritative msg = true
                 ∧ Id msg = Id (SetReply q)
                 ∧ Questions msg = Questions (SetReply q)
                 ∧ Extra msg = Extra (SetReply q))
    (Out w q ch).1
  ∧ (length (Out w q ch).1 ≤ length ch)%nat.
Proof.
  unfold Out.
  destruct (Out_loop_shape ch (set_Authoritative true (SetReply q)) w) as [Hf Hl].
  split; [|exact Hl].
  eapply Forall_impl; [exact Hf|]. by intros msg ->.
Qed.

Lemma Out_loop_all_written (ch : list Envelope) :
  (∀ (w : W) (m : Msg), (rw_WriteMsg w m).1 = None) →
  ∀ (r : Msg) (w : W),
  (Out_loop r w ch).1
  = map (λ i, set_Answer (Answer r ++ concat (map env_RR (take (S i) ch))) r)
      (seq 0 (length ch)).
Proof.
  intros Hok. induction ch as [|x ch IH]; intros r w; [done|].
  simpl.
  pose proof (Hok w (set_Answer (Answer r ++ env_RR x) r)) as Hw.
  destruct (rw_WriteMsg w (set_Answer (Answer r ++ env_RR x) r)) as [e w'].
  simpl in Hw. subst e.
  specialize (IH (set_Answer (Answer r ++ env_RR x) r) w').
  destruct (Out_loop (set_Answer (Answer r ++ env_RR x) r) w' ch) as [ms w''].
  simpl in *. rewrite IH, app_nil_r. f_equal.
  rewrite <- seq_shift, map_map.
  apply map_ext. intros i. simpl. by rewrite app_assoc.
Qed.

(** With a writer that accepts every message, [Out] writes one message per
    Envelope, and the i-th (from 0) is the reply with the records of the
    Envelopes 0 to i appended to its answer section. *)
Theorem Out_writes_every_envelope (w : W) (q : Msg) (ch : list Envelope) :
  (∀ (w0 : W) (m : Msg), (rw_WriteMsg w0 m).1 = None) →
  let r := set_Authoritative true (SetReply q) in
  (Out w q ch).1
  = map (λ i, set_Answer (Answer r ++ concat (map env_RR (take (S i) ch))) r)
      (seq 0 (length ch))
  ∧ length (Out w q ch).1 = length ch.
Proof.
  intros Hok r. subst r. unfold Out.
  rewrite (Out_loop_all_written ch Hok). split; [done|].
  by rewrite length_map, length_seq.
Qed.

End MoreOutProps.

(** ** Concrete runs *)

Import Fixture.

#[local] Existing Instance lib.
#[local] Existing Instance log_writer.

(** Scenario B of the specification: the SOA alone, then the rest of the
    zone closed by the SOA. *)
Example scenario_B :
  InAxfr (transfer_on "192.0.2.1:53" [soa5; a_a_soa5]) 42
  = {| reads := [transfer_on "192.0.2.1:53" [soa5; a_a_soa5];
                 streaming_on "192.0.2.1:53" [soa5; a_a_soa5]];
       sent := [mkEnvelope [SOA 5] None;
                mkEnvelope [A 10; A 11; SOA 5] None];
       exit := Returned;
       final := streaming_on "192.0.2.1:53" [soa5; a_a_soa5] |}.
Proof. vm_compute. reflexivity. Qed.

(** Scenario C: a first message with the wrong identifier. *)
Example scenario_C :
  InAxfr (transfer_on "192.0.2.1:53" [soa5_id99]) 42
  = stop_run (transfer_on "192.0.2.1:53" [soa5_id99])
      (mkEnvelope [SOA 5] (Some ErrId))
      (transfer_on "192.0.2.1:53" [soa5_id99]).
Proof. vm_compute. reflexivity. Qed.

(** An unknown key is a read failure. *)
Example unknown_key :
  sent (InAxfr
          {| conn := {| netconn := mkNetConn "192.0.2.1:53" None None [soa5];
                        TsigSecret := ∅; tsigRequestMAC := "" |};
             DialTimeout := 0; ReadTimeout := 0; WriteTimeout := 0;
             tsigTimersOnly := false |} 42)
  = [mkEnvelope [] (Some ErrSecret)].
Proof. vm_compute. reflexivity. Qed.

(** *** Instances of the theorems above *)

Ltac run_fixture := vm_compute; reflexivity.


(** C9 at a first message whose only record is an address. *)
Lemma missing_leading_soa_witness :
  InAxfr (transfer_on "192.0.2.1:53" [a_only; a_a_soa5]) 42
  = stop_run (transfer_on "192.0.2.1:53" [a_only; a_a_soa5])
      (mkEnvelope [A 10] (Some ErrSoa))
      (transfer_on "192.0.2.1:53" [a_only; a_a_soa5])
  ∧ chan_closed (InAxfr (transfer_on "192.0.2.1:53" [a_only; a_a_soa5]) 42) = true.
Proof.
  exact (missing_leading_soa (L:=lib) (transfer_on "192.0.2.1:53" [a_only; a_a_soa5]) 42
           a_only [a_a_soa5] (decode a_only)
           eq_refl ltac:(run_fixture) ltac:(run_fixture) ltac:(run_fixture)).
Defined.

(** C10 at a message without answers followed by the closing message. *)
Lemma empty_answer_continues_witness :
  InAxfr_loop 42 false (streaming_on "192.0.2.1:53" []) [no_answer; a_a_soa5]
  = cons_run (streaming_on "192.0.2.1:53" []) (mkEnvelope [] None)
      (InAxfr_loop 42 false (streaming_on "192.0.2.1:53" []) [a_a_soa5])
  ∧ (2 ≤ length (reads
       (InAxfr_loop 42 false (streaming_on "192.0.2.1:53" [])
          [no_answer; a_a_soa5])))%nat
  ∧ head (sent (InAxfr_loop 42 false (streaming_on "192.0.2.1:53" [])
                  [no_answer; a_a_soa5]))
    = Some (mkEnvelope [] None).
Proof.
  exact (empty_answer_continues (L:=lib) 42 (streaming_on "192.0.2.1:53" [])
           no_answer [a_a_soa5] (decode no_answer)
           ltac:(run_fixture) ltac:(run_fixture) ltac:(run_fixture)).
Defined.

(** C8 with N = 3: the SOA alone, an address, then a message with the
    identifier 99; the closing message behind it is never read. *)
Lemma id_mismatch_ends_transfer_witness :
  sent (InAxfr (transfer_on "192.0.2.1:53" [soa5; a_only; soa5_id99; a_a_soa5]) 42)
  = [mkEnvelope [SOA 5] None; mkEnvelope [A 10] None;
     mkEnvelope [SOA 5] (Some ErrId)]
  ∧ length (reads (InAxfr
              (transfer_on "192.0.2.1:53" [soa5; a_only; soa5_id99; a_a_soa5]) 42))
    = 3%nat
  ∧ exit (InAxfr (transfer_on "192.0.2.1:53" [soa5; a_only; soa5_id99; a_a_soa5]) 42)
    = Returned
  ∧ chan_closed
      (InAxfr (transfer_on "192.0.2.1:53" [soa5; a_only; soa5_id99; a_a_soa5]) 42)
    = true.
Proof.
  refine (id_mismatch_ends_transfer (L:=lib)
            (transfer_on "192.0.2.1:53" [soa5; a_only; soa5_id99; a_a_soa5]) 42
            [(soa5, decode soa5); (a_only, decode a_only)]
            soa5_id99 (decode soa5_id99) [a_a_soa5] eq_refl _).
  repeat split; try run_fixture. vm_compute. discriminate.
Defined.




(** C2 at a Transfer whose own connection is to 198.51.100.7, called for the
    zone served at 192.0.2.1: the dial reaches 192.0.2.1, and the Envelope
    comes from what 198.51.100.7 sent. *)
Lemma In_reads_receiver_connection_witness :
  In (transfer_on "198.51.100.7:53" [a_only]) query "192.0.2.1:53"
  = Ret {| in_err := None;
           in_co := Some (mkNetConn "192.0.2.1:53" None None zone_frames);
           in_spawned :=
             Some (stop_run (transfer_on "198.51.100.7:53" [a_only])
                     (mkEnvelope [A 10] (Some ErrSoa))
                     (transfer_on "198.51.100.7:53" [a_only])) |}
  ∧ Forall (λ s, netconn (conn s) = mkNetConn "198.51.100.7:53" None None [a_only])
      (reads (InAxfr (transfer_on "198.51.100.7:53" [a_only]) 42)).
Proof.
  destruct (In_reads_receiver_connection (L:=lib)
              (transfer_on "198.51.100.7:53" [a_only]) query "192.0.2.1:53"
              (mkNetConn "192.0.2.1:53" None None zone_frames)
              (mkQuestion "example." 252 1) []
              ltac:(run_fixture) eq_refl (or_introl eq_refl))
    as [Hin Hreads].
  split; [|exact Hreads].
  rewrite Hin. run_fixture.
Defined.

(** C3 at the unsigned SOA message. *)
Lemma unsigned_message_panics_witness :
  ReadMsg (transfer_on "192.0.2.1:53" [soa5_unsigned]) soa5_unsigned = Panic
  ∧ WriteMsg (transfer_on "192.0.2.1:53" [soa5_unsigned]) (decode soa5_unsigned)
    = Panic.
Proof.
  destruct (unsigned_message_panics (L:=lib)
              (transfer_on "192.0.2.1:53" [soa5_unsigned]) (decode soa5_unsigned)
              ltac:(run_fixture))
    as [Hread Hwrite].
  split; [|exact Hwrite].
  apply Hread; [by left | run_fixture].
Defined.

(** Scenario A with the message unsigned: the goroutine panics in the first
    [ReadMsg] and no Envelope is sent. *)
Example scenario_A_unsigned :
  InAxfr (transfer_on "192.0.2.1:53" [soa5_unsigned]) 42
  = {| reads := [transfer_on "192.0.2.1:53" [soa5_unsigned]]; sent := [];
       exit := Panicked; final := transfer_on "192.0.2.1:53" [soa5_unsigned] |}.
Proof. run_fixture. Qed.

(** C5 at two Envelopes, the SOA and then one address: the second reply
    carries both records. *)
Lemma Out_replies_accumulate_witness :
  (Out ([] : list Msg) query [mkEnvelope [SOA 5] None; mkEnvelope [A 10] None]).1
  = [set_Answer [SOA 5] (set_Authoritative true (set_reply query));
     set_Answer [SOA 5; A 10] (set_Authoritative true (set_reply query))]
  ∧ Answer (set_Answer [SOA 5; A 10] (set_Authoritative true (set_reply query)))
    = [SOA 5; A 10].
Proof.
  split; [run_fixture|].
  exact (Out_replies_accumulate (L:=lib) (RW:=log_writer) [] query
           [mkEnvelope [SOA 5] None; mkEnvelope [A 10] None] 1
           (set_Answer [SOA 5; A 10] (set_Authoritative true (set_reply query)))
           ltac:(run_fixture)).
Defined.

(** C6 at a Transfer with a read timeout of two seconds whose peer sends
    nothing: the read never returns, no Envelope is sent and the channel
    stays open. *)
Example silent_peer_blocks :
  InAxfr (set_ReadTimeout 2000000000 (transfer_on "192.0.2.1:53" [])) 42
  = {| reads := [set_ReadTimeout 2000000000 (transfer_on "192.0.2.1:53" [])];
       sent := []; exit := Blocked;
       final := set_ReadTimeout 2000000000 (transfer_on "192.0.2.1:53" []) |}.
Proof. run_fixture. Qed.

(** *** Instances of the theorems on the run as a whole *)

Import Fixture2.

(** A signature that does not verify: the message comes back beside the
    error, and the Envelope carries the error alone. *)
Lemma read_failure_ends_transfer_witness :
  ReadMsg (transfer_with wrong_keys [soa5; a_a_soa5]) soa5
  = Ret (Some (decode soa5), Some (ErrExt "bad signature"))
  ∧ InAxfr_loop 42 true (transfer_with wrong_keys [soa5; a_a_soa5]) [soa5; a_a_soa5]
    = stop_run (transfer_with wrong_keys [soa5; a_a_soa5])
        (mkEnvelope [] (Some (ErrExt "bad signature")))
        (transfer_with wrong_keys [soa5; a_a_soa5]).
Proof.
  split; [run_fixture|].
  exact (read_failure_ends_transfer (L:=lib) 42 true
           (transfer_with wrong_keys [soa5; a_a_soa5]) soa5 [a_a_soa5]
           (Some (decode soa5)) (ErrExt "bad signature") ltac:(run_fixture)).
Defined.

(** An empty key store. *)
Lemma unknown_key_ends_transfer_witness :
  ReadMsg (transfer_with ∅ [soa5]) soa5 = Ret (Some (decode soa5), Some ErrSecret)
  ∧ InAxfr_loop 42 true (transfer_with ∅ [soa5]) [soa5]
    = stop_run (transfer_with ∅ [soa5]) (mkEnvelope [] (Some ErrSecret))
        (transfer_with ∅ [soa5]).
Proof.
  refine (unknown_key_ends_transfer (L:=lib) 42 true (transfer_with ∅ [soa5])
            soa5 [] (decode soa5) (mkTSIG (mkHeader "axfr-key." 250)) _ _ _ _).
  - by left.
  - run_fixture.
  - run_fixture.
  - run_fixture.
Defined.

(** The signed SOA message read together with a timeout is accepted. *)
Lemma read_error_with_data_dropped_witness :
  ReadMsg (transfer_on "192.0.2.1:53" []) soa5_with_error
  = Ret (Some (decode soa5), None).
Proof.
  rewrite (read_error_with_data_dropped (L:=lib) (transfer_on "192.0.2.1:53" [])
             soa5_with_error ltac:(done)).
  run_fixture.
Defined.

Lemma accepted_message_is_verified_witness :
  ∃ (ts : TSIG) (secret : string),
    unpack (rd_bytes soa5) = inl (decode soa5)
    ∧ is_tsig (decode soa5) = Some ts
    ∧ keys !! Name (Hdr ts) = Some secret
    ∧ verify (rd_bytes soa5) secret "" false = None.
Proof.
  exact (accepted_message_is_verified (L:=lib) (transfer_on "192.0.2.1:53" [])
           soa5 (decode soa5) ltac:(run_fixture)).
Defined.

(** The third Envelope of a transfer broken by a wrong identifier. *)
Lemma error_envelope_is_last_witness :
  3%nat = length (sent (InAxfr_loop 42 true (transfer_on "192.0.2.1:53" [])
                          [soa5; a_only; soa5_id99; a_a_soa5]))
  ∧ exit (InAxfr_loop 42 true (transfer_on "192.0.2.1:53" [])
            [soa5; a_only; soa5_id99; a_a_soa5]) = Returned.
Proof.
  exact (error_envelope_is_last (L:=lib) 42 [soa5; a_only; soa5_id99; a_a_soa5]
           true (transfer_on "192.0.2.1:53" []) 2
           (mkEnvelope [SOA 5] (Some ErrId)) ErrId
           ltac:(run_fixture) eq_refl).
Defined.

(** The second Envelope of scenario B. *)
Lemma success_envelope_is_read_message_witness :
  ∃ (s : Transfer) (r : ReadResult) (m : Msg),
    reads (InAxfr_loop 42 true (transfer_on "192.0.2.1:53" []) [soa5; a_a_soa5])
      !! 1%nat = Some s
    ∧ [soa5; a_a_soa5] !! 1%nat = Some r
    ∧ ReadMsg s r = Ret (Some m, None)
    ∧ Id m = 42
    ∧ [A 10; A 11; SOA 5] = Answer m.
Proof.
  exact (success_envelope_is_read_message (L:=lib) 42 [soa5; a_a_soa5] true
           (transfer_on "192.0.2.1:53" []) 1
           (mkEnvelope [A 10; A 11; SOA 5] None)
           ltac:(run_fixture) eq_refl).
Defined.

Lemma first_success_opens_with_soa_witness :
  ∃ (rr : RR) (rest : list RR),
    [SOA 5; A 10] = rr :: rest ∧ Rrtype (Header rr) = 6.
Proof.
  exact (first_success_opens_with_soa (L:=lib)
           (transfer_on "192.0.2.1:53" [soa5_a; a_a_soa5]) 42
           (mkEnvelope [SOA 5; A 10] None) ltac:(run_fixture) eq_refl).
Defined.

Lemma success_end_closes_with_soa_witness :
  ∃ rr : RR, last [A 10; A 11; SOA 5] = Some rr ∧ Rrtype (Header rr) = 6.
Proof.
  exact (success_end_closes_with_soa (L:=lib) 42 [soa5; a_a_soa5] true
           (transfer_on "192.0.2.1:53" [])
           (mkEnvelope [A 10; A 11; SOA 5] None)
           ltac:(run_fixture) ltac:(run_fixture) eq_refl).
Defined.

(** A transfer of four messages: the SOA alone, an address, a message
    without answers, then two addresses and the closing SOA. *)
Lemma complete_transfer_witness :
  sent (InAxfr (transfer_on "192.0.2.1:53" [soa5; a_only; no_answer; a_a_soa5; eof]) 42)
  = [mkEnvelope [SOA 5] None; mkEnvelope [A 10] None; mkEnvelope [] None;
     mkEnvelope [A 10; A 11; SOA 5] None]
  ∧ concat (map env_RR
      (sent (InAxfr
               (transfer_on "192.0.2.1:53" [soa5; a_only; no_answer; a_a_soa5; eof])
               42)))
    = [SOA 5; A 10; A 10; A 11; SOA 5]
  ∧ length (reads (InAxfr
      (transfer_on "192.0.2.1:53" [soa5; a_only; no_answer; a_a_soa5; eof]) 42))
    = 4%nat
  ∧ exit (InAxfr
      (transfer_on "192.0.2.1:53" [soa5; a_only; no_answer; a_a_soa5; eof]) 42)
    = Returned
  ∧ final (InAxfr
      (transfer_on "192.0.2.1:53" [soa5; a_only; no_answer; a_a_soa5; eof]) 42)
    = streaming_on "192.0.2.1:53" [soa5; a_only; no_answer; a_a_soa5; eof].
Proof.
  refine (complete_transfer (L:=lib)
            (transfer_on "192.0.2.1:53" [soa5; a_only; no_answer; a_a_soa5; eof]) 42
            [(soa5, decode soa5); (a_only, decode a_only);
             (no_answer, decode no_answer)]
            a_a_soa5 (decode a_a_soa5) [eof] eq_refl _).
  repeat split; run_fixture.
Defined.

(** A query of type A: the dial is made, nil is returned, nothing is
    started. *)
Lemma In_starts_transfer_iff_witness :
  In (transfer_on "198.51.100.7:53" [soa5]) a_query "192.0.2.1:53"
  = Ret (mkInResult None (Some (mkNetConn "192.0.2.1:53" None None zone_frames)) None)
  ∧ (is_Some (None : option Run) ↔
     ∃ co q0 qs,
       dial "tcp" "192.0.2.1:53" 2000000000 = inl co
       ∧ Questions a_query = q0 :: qs ∧ (Qtype q0 = 252 ∨ Qtype q0 = 251)).
Proof.
  split; [run_fixture|].
  exact (proj1 (proj2 (In_starts_transfer_iff (L:=lib)
           (transfer_on "198.51.100.7:53" [soa5]) a_query "192.0.2.1:53"
           (mkInResult None
              (Some (mkNetConn "192.0.2.1:53" None None zone_frames)) None)
           ltac:(run_fixture)))).
Defined.

(** A signed message written with the key known. *)
Lemma WriteMsg_changes_only_mac_witness :
  WriteMsg (L:=signing_lib) (transfer_on "192.0.2.1:53" []) (signed [SOA 5])
  = Ret (None, set_tsigRequestMAC "hunter2/" (transfer_on "192.0.2.1:53" []))
  ∧ ∃ mac : string,
      set_tsigRequestMAC "hunter2/" (transfer_on "192.0.2.1:53" [])
      = set_tsigRequestMAC mac (transfer_on "192.0.2.1:53" []).
Proof.
  split; [run_fixture|].
  exact (proj1 (WriteMsg_changes_only_mac (L:=signing_lib)
           (transfer_on "192.0.2.1:53" [])
           (set_tsigRequestMAC "hunter2/" (transfer_on "192.0.2.1:53" []))
           (signed [SOA 5]) None ltac:(run_fixture))).
Defined.

(** Two signed messages in a row: the second MAC is made from the first. *)
Lemma WriteMsg_chains_mac_witness :
  WriteMsg (L:=signing_lib) (transfer_on "192.0.2.1:53" []) (signed [SOA 5])
  = Ret (None, set_tsigRequestMAC "hunter2/" (transfer_on "192.0.2.1:53" []))
  ∧ WriteMsg (L:=signing_lib)
      (set_tsigRequestMAC "hunter2/" (transfer_on "192.0.2.1:53" []))
      (signed [A 10])
    = Ret (None,
           set_tsigRequestMAC "hunter2/hunter2/" (transfer_on "192.0.2.1:53" [])).
Proof.
  exact (WriteMsg_chains_mac (L:=signing_lib) (transfer_on "192.0.2.1:53" [])
           (signed [SOA 5]) (signed [A 10])
           (mkTSIG (mkHeader "axfr-key." 250)) (mkTSIG (mkHeader "axfr-key." 250))
           "hunter2" "hunter2" [x2a] [x2a] "hunter2/" "hunter2/hunter2/" None None
           ltac:(run_fixture) ltac:(run_fixture) ltac:(run_fixture)
           ltac:(run_fixture) ltac:(run_fixture) ltac:(run_fixture)).
Defined.

(** Three Envelopes through the writer that keeps what it is given. *)
Lemma Out_writes_every_envelope_witness :
  map Answer
    (Out ([] : list Msg) query
       [mkEnvelope [SOA 5] None; mkEnvelope [A 10; A 11] None;
        mkEnvelope [SOA 5] None]).1
  = [[SOA 5]; [SOA 5; A 10; A 11]; [SOA 5; A 10; A 11; SOA 5]]
  ∧ length
      (Out ([] : list Msg) query
         [mkEnvelope [SOA 5] None; mkEnvelope [A 10; A 11] None;
          mkEnvelope [SOA 5] None]).1
    = 3%nat.
Proof.
  destruct (Out_writes_every_envelope (L:=lib) (RW:=log_writer) [] query
              [mkEnvelope [SOA 5] None; mkEnvelope [A 10; A 11] None;
               mkEnvelope [SOA 5] None]
              ltac:(done))
    as [Hms Hlen].
  split; [|exact Hlen].
  rewrite Hms. run_fixture.
Defined.
